(** * Verification of [generate_gauges.py] (Coaching app)

    The script draws eight aviation-style gauge images with PIL.  It is
    embedded here as a program in a small state and exception monad over a
    [World] that holds the images created so far, the [save] commands
    that succeeded, the lines printed and the file system's answer to
    "can this path be opened for writing".  Every [draw.*] call appends
    one [DrawCmd] to the image its draw object was made for, so the
    emitted draw sequence of a gauge is the [im_cmds] field of the image
    that is saved under its name.  [img.save] raises when the file cannot
    be opened; nothing catches the exception, so the script stops there.

    Coordinates obtained from [math.cos] / [math.sin] are floating point
    numbers in the script; they are kept symbolic ([PlusCos], [PlusSin]),
    with the integer degree value handed to [math.radians] recorded
    exactly.  All angle arithmetic of the script is integer arithmetic. *)

From Stdlib Require Import ZArith List String Ascii Bool Lia Sorted Permutation.
Import ListNotations.
Local Open Scope Z_scope.
Local Open Scope string_scope.

(** ** Python primitives *)

(** [range(start, stop, step)] for a positive [step]: the values
    [start + i*step] below [stop]; empty when [stop <= start]. *)
Definition py_range (start stop step : Z) : list Z :=
  map (fun i => start + Z.of_nat i * step)
      (seq 0 (Z.to_nat ((stop - start + step - 1) / step))).

(** [enumerate(xs)] *)
Definition enumerate {A : Type} (xs : list A) : list (nat * A) :=
  combine (seq 0 (List.length xs)) xs.

(** [x in xs] on integers *)
Definition py_in (x : Z) (xs : list Z) : bool := existsb (Z.eqb x) xs.

(** Truth value of a string: non-empty. *)
Definition truthy (s : string) : bool :=
  match s with EmptyString => false | String _ _ => true end.

(** [i < len(labels) and labels[i]] *)
Definition label_at (labels : list string) (i : nat) : option string :=
  match nth_error labels i with
  | Some s => if truthy s then Some s else None
  | None => None
  end.

(** ** Drawing surface *)

(** [math.radians(deg)], symbolic. *)
Inductive radian : Type := math_radians (deg : Z).

(** A coordinate: an int, or [c + r * math.cos(a)], or [c + r * math.sin(a)]. *)
Inductive coord : Type :=
| Int (z : Z)
| PlusCos (c r : Z) (a : radian)
| PlusSin (c r : Z) (a : radian).

Inductive DrawCmd : Type :=
| Ellipse (bbox : list Z) (fill : string) (outline : option string) (width : option Z)
| Pieslice (bbox : list Z) (start end_ : Z) (fill : string) (outline : option string)
           (width : option Z)
| Line (xy : list coord) (fill : string) (width : Z)
| Text (x y : coord) (text fill anchor : string)
| Rectangle (bbox : list Z) (fill : string) (outline : option string) (width : option Z)
| Polygon (pts : list (Z * Z)) (fill : string).

Record Image : Type := mkImage
  { im_mode : string;
    im_size : Z * Z;
    im_color : Z * Z * Z * Z;
    im_cmds : list DrawCmd }.

Record SaveCmd : Type := mkSave
  { sv_filename : string;
    sv_format : string;
    sv_image : Image }.

(** [openable] is the file system as the script meets it: whether
    opening a path for writing succeeds.  A real one refuses the empty
    name and any path inside a directory that does not exist. *)
Record World : Type := mkWorld
  { images : list Image;
    saved : list SaveCmd;
    stdout : list string;
    openable : string -> bool }.

(** No image, nothing saved, nothing printed, on a file system that lets
    every path be opened. *)
Definition empty_world : World := mkWorld [] [] [] (fun _ => true).

(** ** The effect monad *)

(** The only exception the script can meet: [img.save] failing to open
    its file. *)
Inductive exn : Type := OSError (filename : string).

Inductive outcome (A : Type) : Type :=
| Done (a : A)
| Raised (e : exn).

Arguments Done {A} a.
Arguments Raised {A} e.

Definition M (A : Type) : Type := World -> outcome A * World.

Definition ret {A : Type} (a : A) : M A := fun w => (Done a, w).

(** An exception skips everything that follows. *)
Definition bind {A B : Type} (m : M A) (k : A -> M B) : M B :=
  fun w =>
    match m w with
    | (Done a, w') => k a w'
    | (Raised e, w') => (Raised e, w')
    end.

Notation "x <- m ;; k" := (bind m (fun x => k))
  (at level 61, m at next level, right associativity).
Notation "m ;; k" := (bind m (fun _ => k))
  (at level 61, right associativity).

Definition exec {A : Type} (m : M A) (w : World) : World := snd (m w).

Fixpoint for_ {A : Type} (xs : list A) (body : A -> M unit) : M unit :=
  match xs with
  | [] => ret tt
  | x :: xs' => body x ;; for_ xs' body
  end.

Definition when (b : bool) (m : M unit) : M unit := if b then m else ret tt.

(** A handle on an image; the draw object of an image shares its handle. *)
Definition handle : Type := nat.

Fixpoint update_nth {A : Type} (n : nat) (f : A -> A) (l : list A) : list A :=
  match l, n with
  | [], _ => []
  | x :: l', O => f x :: l'
  | x :: l', S n' => x :: update_nth n' f l'
  end.

(** [Image.new(mode, (w, h), color)] *)
Definition Image_new (mode : string) (size : Z * Z) (color : Z * Z * Z * Z) : M handle :=
  fun w => (Done (List.length (images w)),
            mkWorld (images w ++ [mkImage mode size color []])%list (saved w) (stdout w)
                    (openable w)).

(** [ImageDraw.Draw(img)] *)
Definition ImageDraw_Draw (img : handle) : M handle := ret img.

Definition emit (draw : handle) (c : DrawCmd) : M unit :=
  fun w => (Done tt,
            mkWorld (update_nth draw
                       (fun im => mkImage (im_mode im) (im_size im) (im_color im)
                                          (im_cmds im ++ [c])%list)
                       (images w))
                    (saved w) (stdout w) (openable w)).

(** [img.save(filename, format)]: the image is written when the file can
    be opened; otherwise the call raises and nothing is saved. *)
Definition save (img : handle) (filename format : string) : M unit :=
  fun w =>
    match nth_error (images w) img with
    | Some im =>
        if openable w filename then
          (Done tt, mkWorld (images w) (saved w ++ [mkSave filename format im])%list
                            (stdout w) (openable w))
        else (Raised (OSError filename), w)
    | None => (Done tt, w)
    end.

Definition print (s : string) : M unit :=
  fun w => (Done tt, mkWorld (images w) (saved w) (stdout w ++ [s])%list (openable w)).

(** ** [create_gauge] *)

(** Major tick angles chosen by [create_gauge] (lines 28-45); every
    [gauge_type] other than ['fuel'] and ['compass'] takes the standard
    branch. *)
Definition gauge_angles (gauge_type : string) : list Z :=
  if gauge_type =? "fuel" then
    let start_angle := 180 in
    let end_angle := 360 in
    py_range start_angle (end_angle + 1) 30
  else if gauge_type =? "compass" then
    py_range 0 360 30
  else
    let start_angle := -120 in
    let end_angle := 120 in
    py_range start_angle (end_angle + 1) 30.

Definition gauge_labels (gauge_type : string) : list string :=
  if gauge_type =? "fuel" then ["E"; ""; ""; ""; ""; ""; "F"]
  else if gauge_type =? "compass" then
    ["N"; ""; ""; "E"; ""; ""; "S"; ""; ""; "W"; ""; ""]
  else ["0"; ""; ""; ""; "50"; ""; ""; ""; "100"].

(** [(start_angle, end_angle)] as [create_gauge] sets them. *)
Definition gauge_arc (gauge_type : string) : Z * Z :=
  if gauge_type =? "fuel" then (180, 360)
  else if gauge_type =? "compass" then (0, 360)
  else (-120, 120).

(** Minor-step angles chosen by [create_gauge] (lines 66-73). *)
Definition gauge_minor_angles (gauge_type : string) : list Z :=
  if gauge_type =? "fuel" then py_range 180 361 10
  else if gauge_type =? "compass" then py_range 0 360 10
  else py_range (-120) 121 10.

(** [draw.textbbox] (line 63) only measures; its result is unused and it
    draws nothing, so it leaves no command. *)
Definition create_gauge (filename gauge_type title subtitle : string)
  : M unit :=
  let size := 400 in
  img <- Image_new "RGBA" (size, size) (255, 255, 255, 0) ;;
  draw <- ImageDraw_Draw img ;;
  let center := size / 2 in
  let outer_radius := 180 in
  emit draw (Ellipse [20; 20; size - 20; size - 20] "#1a1a2e" (Some "#0f3460") (Some 3)) ;;
  emit draw (Ellipse [60; 60; size - 60; size - 60] "#16213e" (Some "#0f3460") (Some 2)) ;;
  let angles := gauge_angles gauge_type in
  let labels := gauge_labels gauge_type in
  for_ (enumerate angles) (fun '(i, angle) =>
    let angle_rad := math_radians angle in
    emit draw (Line [PlusCos center (outer_radius - 25) angle_rad;
                     PlusSin center (outer_radius - 25) angle_rad;
                     PlusCos center (outer_radius - 10) angle_rad;
                     PlusSin center (outer_radius - 10) angle_rad] "#e94560" 3) ;;
    match label_at labels i with
    | Some l =>
        emit draw (Text (PlusCos center (outer_radius - 45) angle_rad)
                        (PlusSin center (outer_radius - 45) angle_rad) l "#ffffff" "mm")
    | None => ret tt
    end) ;;
  let minor_angles := gauge_minor_angles gauge_type in
  for_ minor_angles (fun angle =>
    when (negb (py_in angle angles))
      (let angle_rad := math_radians angle in
       emit draw (Line [PlusCos center (outer_radius - 20) angle_rad;
                        PlusSin center (outer_radius - 20) angle_rad;
                        PlusCos center (outer_radius - 10) angle_rad;
                        PlusSin center (outer_radius - 10) angle_rad] "#533483" 2))) ;;
  emit draw (Ellipse [center - 15; center - 15; center + 15; center + 15]
                     "#2d2d44" (Some "#e94560") (Some 2)) ;;
  when (truthy title) (emit draw (Text (Int center) (Int 80) title "#ffffff" "mm")) ;;
  when (truthy subtitle) (emit draw (Text (Int center) (Int 320) subtitle "#aaaaaa" "mm")) ;;
  save img filename "PNG" ;;
  print ("Created " ++ filename).

(** ** Script level: the thrust gauge (lines 103-174) *)

Definition thrust_gauge : M unit :=
  img <- Image_new "RGBA" (400, 400) (255, 255, 255, 0) ;;
  draw <- ImageDraw_Draw img ;;
  let center := 200 in
  let outer_radius := 180 in
  emit draw (Ellipse [20; 20; 380; 380] "#ffffff" (Some "#cccccc") (Some 3)) ;;
  emit draw (Pieslice [60; 60; 340; 340] 150 230 "#fca5a5" (Some "#dc2626") (Some 2)) ;;
  emit draw (Pieslice [60; 60; 340; 340] 230 310 "#fde68a" (Some "#fbbf24") (Some 2)) ;;
  emit draw (Pieslice [60; 60; 340; 340] 310 390 "#bbf7d0" (Some "#22c55e") (Some 2)) ;;
  emit draw (Ellipse [100; 100; 300; 300] "#ffffff" (Some "#cccccc") (Some 2)) ;;
  let angles_original := py_range (-120) 121 30 in
  let labels := ["0"; ""; ""; ""; "50"; ""; ""; ""; "100"] in
  for_ (enumerate angles_original) (fun '(i, angle_orig) =>
    let angle := angle_orig + 90 + 180 in
    let angle_rad := math_radians angle in
    emit draw (Line [PlusCos center (outer_radius - 25) angle_rad;
                     PlusSin center (outer_radius - 25) angle_rad;
                     PlusCos center (outer_radius - 10) angle_rad;
                     PlusSin center (outer_radius - 10) angle_rad] "#000000" 3) ;;
    match label_at labels i with
    | Some l =>
        emit draw (Text (PlusCos center (outer_radius - 45) angle_rad)
                        (PlusSin center (outer_radius - 45) angle_rad) l "#000000" "mm")
    | None => ret tt
    end) ;;
  let minor_angles_original := py_range (-120) 121 10 in
  for_ minor_angles_original (fun angle_orig =>
    let angle := angle_orig + 90 + 180 in
    when (negb (py_in angle_orig angles_original))
      (let angle_rad := math_radians angle in
       emit draw (Line [PlusCos center (outer_radius - 20) angle_rad;
                        PlusSin center (outer_radius - 20) angle_rad;
                        PlusCos center (outer_radius - 10) angle_rad;
                        PlusSin center (outer_radius - 10) angle_rad] "#666666" 2))) ;;
  emit draw (Text (Int center) (Int 70) "THRUST" "#000000" "mm") ;;
  emit draw (Text (Int center) (Int 330) "Power" "#666666" "mm") ;;
  emit draw (Ellipse [center - 15; center - 15; center + 15; center + 15]
                     "#cccccc" (Some "#000000") (Some 2)) ;;
  save img "images/thrust-gauge.png" "PNG" ;;
  print "Created images/thrust-gauge.png (white background with color zones, rotated 90° CCW)".

(** ** [create_standard_color_gauge] (lines 177-237) *)

Definition create_standard_color_gauge (filename title subtitle : string) : M unit :=
  img <- Image_new "RGBA" (400, 400) (255, 255, 255, 0) ;;
  draw <- ImageDraw_Draw img ;;
  let center := 200 in
  let outer_radius := 180 in
  emit draw (Ellipse [20; 20; 380; 380] "#ffffff" (Some "#cccccc") (Some 3)) ;;
  emit draw (Pieslice [60; 60; 340; 340] 150 230 "#fca5a5" (Some "#dc2626") (Some 2)) ;;
  emit draw (Pieslice [60; 60; 340; 340] 230 310 "#fde68a" (Some "#fbbf24") (Some 2)) ;;
  emit draw (Pieslice [60; 60; 340; 340] 310 390 "#bbf7d0" (Some "#22c55e") (Some 2)) ;;
  emit draw (Ellipse [100; 100; 300; 300] "#ffffff" (Some "#cccccc") (Some 2)) ;;
  let angles_original := py_range (-120) 121 30 in
  let labels := ["0"; ""; ""; ""; "50"; ""; ""; ""; "100"] in
  for_ (enumerate angles_original) (fun '(i, angle_orig) =>
    let angle := angle_orig + 90 + 180 in
    let angle_rad := math_radians angle in
    emit draw (Line [PlusCos center (outer_radius - 25) angle_rad;
                     PlusSin center (outer_radius - 25) angle_rad;
                     PlusCos center (outer_radius - 10) angle_rad;
                     PlusSin center (outer_radius - 10) angle_rad] "#000000" 3) ;;
    match label_at labels i with
    | Some l =>
        emit draw (Text (PlusCos center (outer_radius - 45) angle_rad)
                        (PlusSin center (outer_radius - 45) angle_rad) l "#000000" "mm")
    | None => ret tt
    end) ;;
  let minor_angles_original := py_range (-120) 121 10 in
  for_ minor_angles_original (fun angle_orig =>
    let angle := angle_orig + 90 + 180 in
    when (negb (py_in angle_orig angles_original))
      (let angle_rad := math_radians angle in
       emit draw (Line [PlusCos center (outer_radius - 20) angle_rad;
                        PlusSin center (outer_radius - 20) angle_rad;
                        PlusCos center (outer_radius - 10) angle_rad;
                        PlusSin center (outer_radius - 10) angle_rad] "#666666" 2))) ;;
  emit draw (Text (Int center) (Int 70) title "#000000" "mm") ;;
  emit draw (Text (Int center) (Int 330) subtitle "#666666" "mm") ;;
  emit draw (Ellipse [center - 15; center - 15; center + 15; center + 15]
                     "#cccccc" (Some "#000000") (Some 2)) ;;
  save img filename "PNG" ;;
  print ("Created " ++ filename ++ " (white background with color zones)").

(** ** Script level: the fuel gauge (lines 245-330) *)

(** Major tick angles and labels of the fuel gauge (lines 270-271). *)
Definition fuel_angles : list Z := [270; 300; 330; 0; 30; 60; 90].
Definition fuel_labels : list string := ["F"; ""; ""; ""; ""; ""; "E"].

(** Minor-step angles of the fuel gauge (line 291). *)
Definition fuel_minor_angles : list Z :=
  (py_range 270 360 10 ++ py_range 0 91 10)%list.

(** The fuel pump icon (lines 301-320). *)
Definition fuel_icon (draw : handle) (center : Z) : M unit :=
  let pump_x := center - 60 in
  let pump_y := center - 10 in
  emit draw (Rectangle [pump_x - 20; pump_y - 25; pump_x + 20; pump_y + 25]
                       "#666666" (Some "#333333") None) ;;
  emit draw (Rectangle [pump_x - 25; pump_y - 15; pump_x - 20; pump_y - 5]
                       "#666666" (Some "#333333") None) ;;
  emit draw (Rectangle [pump_x - 12; pump_y - 15; pump_x + 12; pump_y - 5]
                       "#ffffff" (Some "#333333") (Some 1)) ;;
  let droplet_top_x := pump_x in
  let droplet_top_y := pump_y + 5 in
  emit draw (Ellipse [droplet_top_x - 6; droplet_top_y; droplet_top_x + 6; droplet_top_y + 12]
                     "#666666" None None) ;;
  emit draw (Polygon [(droplet_top_x, droplet_top_y - 8);
                      (droplet_top_x - 6, droplet_top_y);
                      (droplet_top_x + 6, droplet_top_y)] "#666666").

Definition fuel_gauge : M unit :=
  img <- Image_new "RGBA" (400, 400) (255, 255, 255, 0) ;;
  draw <- ImageDraw_Draw img ;;
  let center := 200 in
  let outer_radius := 180 in
  emit draw (Ellipse [20; 20; 380; 380] "#ffffff" (Some "#cccccc") (Some 3)) ;;
  emit draw (Pieslice [60; 60; 340; 340] 270 330 "#bbf7d0" (Some "#22c55e") (Some 2)) ;;
  emit draw (Pieslice [60; 60; 340; 340] 330 30 "#fde68a" (Some "#fbbf24") (Some 2)) ;;
  emit draw (Pieslice [60; 60; 340; 340] 30 90 "#fca5a5" (Some "#dc2626") (Some 2)) ;;
  emit draw (Ellipse [100; 100; 300; 300] "#ffffff" (Some "#cccccc") (Some 2)) ;;
  let angles := fuel_angles in
  let labels := fuel_labels in
  for_ (enumerate angles) (fun '(i, angle) =>
    let angle_rad := math_radians angle in
    emit draw (Line [PlusCos center (outer_radius - 25) angle_rad;
                     PlusSin center (outer_radius - 25) angle_rad;
                     PlusCos center (outer_radius - 10) angle_rad;
                     PlusSin center (outer_radius - 10) angle_rad] "#000000" 3) ;;
    match label_at labels i with
    | Some l =>
        emit draw (Text (PlusCos center (outer_radius - 45) angle_rad)
                        (PlusSin center (outer_radius - 45) angle_rad) l "#000000" "mm")
    | None => ret tt
    end) ;;
  let minor_angles := fuel_minor_angles in
  for_ minor_angles (fun angle =>
    when (negb (py_in angle angles))
      (let angle_rad := math_radians angle in
       emit draw (Line [PlusCos center (outer_radius - 20) angle_rad;
                        PlusSin center (outer_radius - 20) angle_rad;
                        PlusCos center (outer_radius - 10) angle_rad;
                        PlusSin center (outer_radius - 10) angle_rad] "#666666" 2))) ;;
  fuel_icon draw center ;;
  emit draw (Text (Int center) (Int 70) "FUEL" "#000000" "mm") ;;
  emit draw (Text (Int center) (Int 330) "Energy Level" "#666666" "mm") ;;
  emit draw (Ellipse [center - 15; center - 15; center + 15; center + 15]
                     "#cccccc" (Some "#000000") (Some 2)) ;;
  save img "images/fuel-gauge.png" "PNG" ;;
  print "Created images/fuel-gauge.png (white background with black fuel icon)".

(** ** Script level: the horizon gauge (lines 335-369) *)

Definition horizon_gauge : M unit :=
  img <- Image_new "RGBA" (400, 400) (255, 255, 255, 0) ;;
  draw <- ImageDraw_Draw img ;;
  let center := 200 in
  emit draw (Ellipse [20; 20; 380; 380] "#1a1a2e" (Some "#0f3460") (Some 3)) ;;
  emit draw (Pieslice [60; 60; 340; 340] 180 360 "#0066cc" (Some "#0f3460") None) ;;
  emit draw (Pieslice [60; 60; 340; 340] 0 180 "#8b4513" (Some "#0f3460") None) ;;
  emit draw (Line [Int 60; Int center; Int 340; Int center] "#ffffff" 3) ;;
  emit draw (Line [Int (center - 40); Int center; Int (center - 20); Int center] "#ffff00" 4) ;;
  emit draw (Line [Int (center + 20); Int center; Int (center + 40); Int center] "#ffff00" 4) ;;
  emit draw (Ellipse [center - 8; center - 8; center + 8; center + 8]
                     "#ffff00" (Some "#ff8800") (Some 2)) ;;
  for_ (py_range (-30) 31 10) (fun i =>
    let y := center + i * 2 in
    when (negb (i =? 0)%Z)
      (emit draw (Line [Int 80; Int y; Int 100; Int y] "#ffffff" 2) ;;
       emit draw (Line [Int 300; Int y; Int 320; Int y] "#ffffff" 2))) ;;
  emit draw (Text (Int center) (Int 80) "HORIZON" "#ffffff" "mm") ;;
  emit draw (Text (Int center) (Int 320) "Attitude" "#aaaaaa" "mm") ;;
  save img "images/horizon-gauge.png" "PNG" ;;
  print "Created images/horizon-gauge.png".

(** ** The whole script, in program order *)

Definition newline : string := String (ascii_of_nat 10) EmptyString.

Definition main : M unit :=
  print "Generating gauge images..." ;;
  thrust_gauge ;;
  create_standard_color_gauge "images/engine-gauge.png" "ENGINE" "Condition" ;;
  create_standard_color_gauge "images/positive-gauge.png" "POSITIVE" "Emotion" ;;
  create_standard_color_gauge "images/weight-gauge.png" "WEIGHT" "Balance" ;;
  create_standard_color_gauge "images/negative-gauge.png" "NEGATIVE" "Stress" ;;
  fuel_gauge ;;
  create_gauge "images/compass-gauge.png" "compass" "COMPASS" "Direction" ;;
  horizon_gauge ;;
  print (newline ++ "All gauge images generated successfully!") ;;
  print "Images are saved in the 'images' folder".

(** The state of the world after a complete run. *)
Definition final_world : World := exec main empty_world.

(** The draw sequence a program emits on the (single) image it creates
    when started in the empty world. *)
Definition cmds_of (m : M unit) : list DrawCmd :=
  match saved (exec m empty_world) with
  | s :: _ => im_cmds (sv_image s)
  | [] => []
  end.

(** The draw sequence saved under [filename] by a complete run. *)
Definition saved_cmds (filename : string) : list DrawCmd :=
  match find (fun s => sv_filename s =? filename) (saved final_world) with
  | Some s => im_cmds (sv_image s)
  | None => []
  end.

(** ** Reading a draw sequence *)

(** A colour zone is a pie slice. *)
Definition is_zone (c : DrawCmd) : bool :=
  match c with Pieslice _ _ _ _ _ _ => true | _ => false end.

Definition zone_of (c : DrawCmd) : option (Z * Z) :=
  match c with Pieslice _ s e _ _ _ => Some (s, e) | _ => None end.

(** The inner face circle of the colour-zone gauges (box 100..300). *)
Definition is_inner_face (c : DrawCmd) : bool :=
  match c with
  | Ellipse [x0; y0; x1; y1] _ _ _ =>
      (x0 =? 100)%Z && (y0 =? 100)%Z && (x1 =? 300)%Z && (y1 =? 300)%Z
  | _ => false
  end.

(** A tick is a line drawn from a point on a circle; the major ticks are
    the lines of width 3 and the minor ticks those of width 2. *)
Definition tick_of (c : DrawCmd) : option (Z * Z) :=
  match c with
  | Line (PlusCos _ _ (math_radians a) :: _) _ w => Some (a, w)
  | _ => None
  end.

Definition is_tick (c : DrawCmd) : bool :=
  match tick_of c with Some _ => true | None => false end.

Definition is_major_tick (c : DrawCmd) : bool :=
  match tick_of c with Some (_, w) => (w =? 3)%Z | None => false end.

Definition is_minor_tick (c : DrawCmd) : bool :=
  match tick_of c with Some (_, w) => (w =? 2)%Z | None => false end.

(** A tick label is a text anchored at a point on a circle. *)
Definition label_of (c : DrawCmd) : option (Z * string) :=
  match c with
  | Text (PlusCos _ _ (math_radians a)) _ s _ _ => Some (a, s)
  | _ => None
  end.

Definition omap {A B : Type} (f : A -> option B) (l : list A) : list B :=
  flat_map (fun a => match f a with Some b => [b] | None => [] end) l.

Definition zone_angles (l : list DrawCmd) : list (Z * Z) := omap zone_of l.

Definition major_tick_angles (l : list DrawCmd) : list Z :=
  map fst (filter (fun aw => (snd aw =? 3)%Z) (omap tick_of l)).

Definition minor_tick_angles (l : list DrawCmd) : list Z :=
  map fst (filter (fun aw => (snd aw =? 2)%Z) (omap tick_of l)).

Definition labels_drawn (l : list DrawCmd) : list (Z * string) := omap label_of l.

(** For every major tick, in order, the label drawn at its angle if any. *)
Definition labels_at_major (l : list DrawCmd) : list (option string) :=
  map (fun a => option_map snd (find (fun p => (fst p =? a)%Z) (labels_drawn l)))
      (major_tick_angles l).

(** The degree values handed to [math.radians] by one command, in order. *)
Definition coord_angle (p : coord) : list Z :=
  match p with
  | Int _ => []
  | PlusCos _ _ (math_radians a) => [a]
  | PlusSin _ _ (math_radians a) => [a]
  end.

Definition point_angles (c : DrawCmd) : list Z :=
  match c with
  | Line xy _ _ => flat_map coord_angle xy
  | Text x y _ _ _ => (coord_angle x ++ coord_angle y)%list
  | _ => []
  end.

(** Every [P] command comes strictly before every [Q] command. *)
Definition precedes (P Q : DrawCmd -> bool) (l : list DrawCmd) : Prop :=
  forall i j a b,
    nth_error l i = Some a -> nth_error l j = Some b ->
    P a = true -> Q b = true -> (i < j)%nat.

Fixpoint precedesb (P Q : DrawCmd -> bool) (l : list DrawCmd) : bool :=
  match l with
  | [] => true
  | c :: l' => (negb (Q c) || negb (existsb P (c :: l'))) && precedesb P Q l'
  end.

Definition zones_first (l : list DrawCmd) : Prop :=
  precedes is_zone is_inner_face l /\
  precedes is_zone is_major_tick l /\
  precedes is_zone is_minor_tick l.

Definition zones_firstb (l : list DrawCmd) : bool :=
  precedesb is_zone is_inner_face l &&
  precedesb is_zone is_major_tick l &&
  precedesb is_zone is_minor_tick l.

(** ** Zone spans *)

Definition norm360 (a : Z) : Z := a mod 360.

(** Angular span of a zone once both endpoints are taken modulo 360. *)
Definition span (z : Z * Z) : Z := (norm360 (snd z) - norm360 (fst z)) mod 360.

Definition total_span (zs : list (Z * Z)) : Z := fold_right Z.add 0 (map span zs).

(** Degree [d] lies in the zone, swept clockwise from its start. *)
Definition covers (z : Z * Z) (d : Z) : bool := ((d - fst z) mod 360 <? span z)%Z.

Definition pairwise_disjoint (zs : list (Z * Z)) : Prop :=
  forall i j zi zj d,
    nth_error zs i = Some zi -> nth_error zs j = Some zj -> i <> j ->
    covers zi d = true -> covers zj d = true -> False.

(** ** Rotation, as the specification words it *)

(** Adding a rotation offset to every angle of a sequence. *)
Definition rotate_angles (offset : Z) (angles : list Z) : list Z :=
  map (fun a => a + offset) angles.

Definition rotate_zone (offset : Z) (z : Z * Z) : Z * Z :=
  (fst z + offset, snd z + offset).

(** Turning a computed point: the offset is added to the angle handed to
    [math.radians]; centre, radius and the choice of cos or sin stay. *)
Definition rotate_coord (offset : Z) (p : coord) : coord :=
  match p with
  | Int z => Int z
  | PlusCos c r (math_radians a) => PlusCos c r (math_radians (a + offset))
  | PlusSin c r (math_radians a) => PlusSin c r (math_radians (a + offset))
  end.

(** The layout of the 240 degree gauge as the specification describes it
    for a rotation offset: the full angle sequence is generated at the
    minor step over -120..120 in the native frame, the major ticks are
    every third angle of it and the minor ticks the remaining ones,
    labels go with the major ticks by position, and the offset is added
    to each angle before the point [(c + r cos, c + r sin)] is formed.
    The centre 200 and the radii 155, 160, 170 and 135 are the script's. *)
Definition spec_angles : list Z := py_range (-120) (120 + 1) 10.

Definition spec_major (angles : list Z) : list Z :=
  map snd (filter (fun p => (fst p mod 3 =? 0)%nat) (enumerate angles)).

Definition spec_minor (angles : list Z) : list Z :=
  filter (fun a => negb (py_in a (spec_major angles))) angles.

Definition spec_point (r angle : Z) : list coord :=
  [PlusCos 200 r (math_radians angle); PlusSin 200 r (math_radians angle)].

Definition spec_tick (r1 r2 offset angle : Z) : list coord :=
  (spec_point r1 (angle + offset) ++ spec_point r2 (angle + offset))%list.

Definition spec_major_tick_points (offset : Z) : list coord :=
  flat_map (spec_tick 155 170 offset) (spec_major spec_angles).

Definition spec_minor_tick_points (offset : Z) : list coord :=
  flat_map (spec_tick 160 170 offset) (spec_minor spec_angles).

Definition spec_label_points (offset : Z) : list coord :=
  flat_map (fun p => if truthy (snd p) then spec_point 135 (fst p + offset) else [])
           (combine (spec_major spec_angles)
                    ["0"; ""; ""; ""; "50"; ""; ""; ""; "100"]).

(** ** Computed points of a draw sequence *)

Definition is_computed (p : coord) : bool :=
  match p with Int _ => false | _ => true end.

(** The coordinates of a command that come out of [math.cos] or
    [math.sin], in full and in order. *)
Definition computed_points (c : DrawCmd) : list coord :=
  match c with
  | Line xy _ _ => filter is_computed xy
  | Text x y _ _ _ => filter is_computed [x; y]
  | _ => []
  end.

Definition is_label (c : DrawCmd) : bool :=
  match label_of c with Some _ => true | None => false end.

Definition major_tick_points (l : list DrawCmd) : list coord :=
  flat_map computed_points (filter is_major_tick l).

Definition minor_tick_points (l : list DrawCmd) : list coord :=
  flat_map computed_points (filter is_minor_tick l).

Definition label_points (l : list DrawCmd) : list coord :=
  flat_map computed_points (filter is_label l).

(** ** Titles *)

Definition is_title (c : DrawCmd) : bool :=
  match c with Text (Int _) (Int _) _ _ _ => true | _ => false end.

(** Blank the text of the title and subtitle (texts at fixed points). *)
Definition erase_title (c : DrawCmd) : DrawCmd :=
  match c with
  | Text (Int x) (Int y) _ fill anchor => Text (Int x) (Int y) "" fill anchor
  | _ => c
  end.

(** ** The fuel pump icon on its own *)

Definition icon_cmds : list DrawCmd :=
  match images (exec (img <- Image_new "RGBA" (400, 400) (255, 255, 255, 0) ;;
                      fuel_icon img 200) empty_world) with
  | im :: _ => im_cmds im
  | [] => []
  end.

(** What follows the last [P] command (everything when there is none). *)
Fixpoint after_last (P : DrawCmd -> bool) (l : list DrawCmd) : list DrawCmd :=
  match l with
  | [] => []
  | c :: l' =>
      if existsb P l' then after_last P l'
      else if P c then l' else c :: l'
  end.

(** What comes before the first [P] command. *)
Fixpoint before_first (P : DrawCmd -> bool) (l : list DrawCmd) : list DrawCmd :=
  match l with
  | [] => []
  | c :: l' => if P c then [] else c :: before_first P l'
  end.

(** The overlay of a gauge: what it draws after its last tick and before
    its title. *)
Definition overlay (l : list DrawCmd) : list DrawCmd :=
  before_first is_title (after_last is_tick l).

(** No string occurs twice. *)
Fixpoint distinctb (l : list string) : bool :=
  match l with
  | [] => true
  | x :: l' => negb (existsb (String.eqb x) l') && distinctb l'
  end.

(** The gauges of the catalog and the colour-zone ones among them. *)
Definition gauge_names : list string :=
  ["thrust-gauge.png"; "engine-gauge.png"; "positive-gauge.png"; "weight-gauge.png";
   "negative-gauge.png"; "fuel-gauge.png"; "compass-gauge.png"; "horizon-gauge.png"].

Definition zone_gauge_files : list string :=
  ["images/thrust-gauge.png"; "images/engine-gauge.png"; "images/positive-gauge.png";
   "images/weight-gauge.png"; "images/negative-gauge.png"; "images/fuel-gauge.png"].

Definition standard_family_files : list string :=
  ["images/thrust-gauge.png"; "images/engine-gauge.png"; "images/positive-gauge.png";
   "images/weight-gauge.png"; "images/negative-gauge.png"].

(** ** Effect of a drawing program on an arbitrary world *)

(** Appending commands to an image. *)
Definition add_cmds (cs : list DrawCmd) (im : Image) : Image :=
  mkImage (im_mode im) (im_size im) (im_color im) (im_cmds im ++ cs)%list.

(** The world after the commands [cs] were drawn through handle [h]. *)
Definition push (h : handle) (cs : list DrawCmd) (w : World) : World :=
  mkWorld (update_nth h (add_cmds cs) (images w)) (saved w) (stdout w) (openable w).

(** [m] does nothing but draw [cs] through [h], and does not raise. *)
Definition appends (h : handle) (cs : list DrawCmd) (m : M unit) : Prop :=
  forall w, m w = (Done tt, push h cs w).

(** [m] draws [cs] through [h] and then calls [save]: when [filename]
    can be opened the image is saved once as PNG and [msg] is printed;
    otherwise [m] raises with the drawing done, nothing saved and
    nothing printed. *)
Definition finishes (h : handle) (cs : list DrawCmd) (filename msg : string)
  (m : M unit) : Prop :=
  forall w im,
    nth_error (images w) h = Some im ->
    m w = if openable w filename then
            (Done tt, mkWorld (update_nth h (add_cmds cs) (images w))
                              (saved w ++ [mkSave filename "PNG" (add_cmds cs im)])%list
                              (stdout w ++ [msg])%list
                              (openable w))
          else (Raised (OSError filename), push h cs w).

(** One more gauge: a new transparent 400 x 400 RGBA image carrying [cs],
    one save command for it and one printed line, after everything the
    world already holds. *)
Definition gauge_effect (cs : list DrawCmd) (filename msg : string) (w : World) : World :=
  let im := mkImage "RGBA" (400, 400) (255, 255, 255, 0) cs in
  mkWorld (images w ++ [im])%list
          (saved w ++ [mkSave filename "PNG" im])%list
          (stdout w ++ [msg])%list
          (openable w).

(** The gauge was drawn in memory, but neither saved nor announced. *)
Definition drawn_only (cs : list DrawCmd) (w : World) : World :=
  mkWorld (images w ++ [mkImage "RGBA" (400, 400) (255, 255, 255, 0) cs])%list
          (saved w) (stdout w) (openable w).

(** [m] draws one gauge, in whatever world it is started.  If the file
    can be opened its effect is [gauge_effect]; if not it raises
    [OSError] after drawing.  The draw sequence is the one [m] emits in
    the empty world. *)
Definition draws_one_gauge (m : M unit) (filename msg : string) : Prop :=
  forall w,
    m w = if openable w filename then
            (Done tt, gauge_effect (cmds_of m) filename msg w)
          else (Raised (OSError filename), drawn_only (cmds_of m) w).

(** ** Files *)

(** The file names the script saves under, in script order. *)
Definition script_files : list string :=
  ["images/thrust-gauge.png"; "images/engine-gauge.png"; "images/positive-gauge.png";
   "images/weight-gauge.png"; "images/negative-gauge.png"; "images/fuel-gauge.png";
   "images/compass-gauge.png"; "images/horizon-gauge.png"].



(** The image a file holds after a sequence of save commands: that of
    the last save under its name. *)
Definition file_image (svs : list SaveCmd) (filename : string) : option Image :=
  option_map sv_image (find (fun s => sv_filename s =? filename) (rev svs)).

(** The gauges with a dial, whose ticks are radial: all but the horizon. *)
Definition dial_gauge_files : list string :=
  ["images/thrust-gauge.png"; "images/engine-gauge.png"; "images/positive-gauge.png";
   "images/weight-gauge.png"; "images/negative-gauge.png"; "images/fuel-gauge.png";
   "images/compass-gauge.png"].

(** ** Checks on lists of angles *)

Fixpoint distinctZb (l : list Z) : bool :=
  match l with
  | [] => true
  | x :: l' => negb (py_in x l') && distinctZb l'
  end.

(** [l1] has no repetition, lies within [l2] and is not shorter. *)
Definition rearrangesb (l1 l2 : list Z) : bool :=
  distinctZb l1 && forallb (fun a => py_in a l2) l1 &&
  (List.length l2 <=? List.length l1)%nat.

(** ** Tick geometry *)

(** A line from [(c + r1 cos a, c + r1 sin a)] to [(c + r2 cos a, c + r2 sin a)]
    with [c] the canvas centre 200 and 140 < r1 < r2 < 180. *)
Definition radial_tick (c : DrawCmd) : bool :=
  match c with
  | Line [PlusCos c1 r1 (math_radians a1); PlusSin c2 r2 (math_radians a2);
          PlusCos c3 r3 (math_radians a3); PlusSin c4 r4 (math_radians a4)] _ _ =>
      (c1 =? 200)%Z && (c2 =? 200)%Z && (c3 =? 200)%Z && (c4 =? 200)%Z &&
      (a1 =? a2)%Z && (a2 =? a3)%Z && (a3 =? a4)%Z &&
      (r1 =? r2)%Z && (r3 =? r4)%Z &&
      (140 <? r1)%Z && (r1 <? r3)%Z && (r3 <? 180)%Z
  | _ => false
  end.

(** The background circle (box 20..380, radius 180 about the centre). *)
Definition is_background (c : DrawCmd) : bool :=
  match c with
  | Ellipse [x0; y0; x1; y1] _ _ _ =>
      (x0 =? 20)%Z && (y0 =? 20)%Z && (x1 =? 380)%Z && (y1 =? 380)%Z
  | _ => false
  end.

(** Circles and slices other than the background stay within the box
    60..340 (radius 140 about the centre) or are smaller. *)
Definition within_face (c : DrawCmd) : bool :=
  match c with
  | Ellipse [x0; y0; x1; y1] _ _ _ | Pieslice [x0; y0; x1; y1] _ _ _ _ _ =>
      (60 <=? x0)%Z && (60 <=? y0)%Z && (x1 <=? 340)%Z && (y1 <=? 340)%Z
  | _ => true
  end.

Definition ticks_in_band (l : list DrawCmd) : bool :=
  match l with
  | bg :: rest =>
      is_background bg && forallb within_face rest &&
      forallb (fun c => negb (is_tick c) || radial_tick c) l
  | [] => false
  end.

(** ** Segments between integer points (horizon gauge) *)

(** [(x1, y1, x2, y2, width)] of a line given by four ints. *)
Definition segment_of (c : DrawCmd) : option (Z * Z * Z * Z * Z) :=
  match c with
  | Line [Int x1; Int y1; Int x2; Int y2] _ w => Some (x1, y1, x2, y2, w)
  | _ => None
  end.

(** The pitch ticks: the segments of width 2, as [(x1, y, x2)]. *)
Definition pitch_ticks (l : list DrawCmd) : list (Z * Z * Z) :=
  omap (fun c => match segment_of c with
                 | Some (x1, y1, x2, _, w) => if (w =? 2)%Z then Some (x1, y1, x2) else None
                 | None => None
                 end) l.

(** ** The script as a sequence of gauges *)

(** One gauge of the script: the program that draws and saves it, its
    file name and the line it prints. *)
Record gauge_job : Type := mkJob
  { job_prog : M unit;
    job_file : string;
    job_msg : string }.

Definition script_jobs : list gauge_job :=
  [ mkJob thrust_gauge "images/thrust-gauge.png"
      "Created images/thrust-gauge.png (white background with color zones, rotated 90° CCW)";
    mkJob (create_standard_color_gauge "images/engine-gauge.png" "ENGINE" "Condition")
      "images/engine-gauge.png"
      ("Created " ++ "images/engine-gauge.png" ++ " (white background with color zones)");
    mkJob (create_standard_color_gauge "images/positive-gauge.png" "POSITIVE" "Emotion")
      "images/positive-gauge.png"
      ("Created " ++ "images/positive-gauge.png" ++ " (white background with color zones)");
    mkJob (create_standard_color_gauge "images/weight-gauge.png" "WEIGHT" "Balance")
      "images/weight-gauge.png"
      ("Created " ++ "images/weight-gauge.png" ++ " (white background with color zones)");
    mkJob (create_standard_color_gauge "images/negative-gauge.png" "NEGATIVE" "Stress")
      "images/negative-gauge.png"
      ("Created " ++ "images/negative-gauge.png" ++ " (white background with color zones)");
    mkJob fuel_gauge "images/fuel-gauge.png"
      "Created images/fuel-gauge.png (white background with black fuel icon)";
    mkJob (create_gauge "images/compass-gauge.png" "compass" "COMPASS" "Direction")
      "images/compass-gauge.png" ("Created " ++ "images/compass-gauge.png");
    mkJob horizon_gauge "images/horizon-gauge.png" "Created images/horizon-gauge.png" ].

(** Running the jobs one after the other, then [k]. *)
Definition seq_jobs (jobs : list gauge_job) (k : M unit) : M unit :=
  fold_right (fun j acc => job_prog j ;; acc) k jobs.

Definition job_image (j : gauge_job) : Image :=
  mkImage "RGBA" (400, 400) (255, 255, 255, 0) (cmds_of (job_prog j)).

Definition job_save (j : gauge_job) : SaveCmd :=
  mkSave (job_file j) "PNG" (job_image j).

Definition job_effect (j : gauge_job) (w : World) : World :=
  gauge_effect (cmds_of (job_prog j)) (job_file j) (job_msg j) w.

Definition worlds_after (jobs : list gauge_job) (w : World) : World :=
  fold_left (fun w j => job_effect j w) jobs w.

(** The jobs that get done before the first one whose file cannot be
    opened, and that one if there is one. *)
Fixpoint split_jobs (w : World) (jobs : list gauge_job)
  : list gauge_job * option gauge_job :=
  match jobs with
  | [] => ([], None)
  | j :: js =>
      if openable w (job_file j) then
        let (done, failed) := split_jobs w js in (j :: done, failed)
      else ([], Some j)
  end.

(** * Properties *)

(** ** Python ranges *)

Lemma py_range_length (start stop step : Z) :
  List.length (py_range start stop step) = Z.to_nat ((stop - start + step - 1) / step).
Proof.
  unfold py_range.
  rewrite length_map, length_seq.
  reflexivity.
Qed.

Lemma py_range_In (start stop step a : Z) :
  0 < step ->
  In a (py_range start stop step) <->
  start <= a < stop /\ (a - start) mod step = 0.
Proof.
  intros Hstep. unfold py_range. rewrite in_map_iff. split.
  - intros (i & Ha & Hi). apply in_seq in Hi. subst a.
    assert (Hq : Z.of_nat i < (stop - start + step - 1) / step) by lia.
    assert (Hm := Z.mul_div_le (stop - start + step - 1) step Hstep).
    split; [nia|].
    replace (start + Z.of_nat i * step - start) with (Z.of_nat i * step) by ring.
    apply Z.mod_mul. lia.
  - intros ([Hlo Hhi] & Hmod).
    assert (Ha : a - start = step * ((a - start) / step)).
    { rewrite (Z.div_mod (a - start) step) at 1 by lia. lia. }
    set (k := (a - start) / step) in *.
    assert (Hk0 : 0 <= k) by (subst k; apply Z.div_pos; lia).
    assert (Hk1 : k + 1 <= (stop - start + step - 1) / step).
    { apply Z.div_le_lower_bound; [lia | nia]. }
    exists (Z.to_nat k). split.
    + rewrite Z2Nat.id by lia. lia.
    + apply in_seq. lia.
Qed.

(** ** Deciding precedence *)

Lemma existsb_nth_error {A : Type} (P : A -> bool) (l : list A) (i : nat) (a : A) :
  nth_error l i = Some a -> P a = true -> existsb P l = true.
Proof.
  intros Hn Hp. apply existsb_exists. exists a. split; [|exact Hp].
  eapply nth_error_In; eassumption.
Qed.

Lemma precedesb_sound (P Q : DrawCmd -> bool) (l : list DrawCmd) :
  precedesb P Q l = true -> precedes P Q l.
Proof.
  induction l as [|c l IH]; intros H i j a b Hi Hj Hp Hq.
  - destruct i; discriminate.
  - cbn [precedesb] in H. apply andb_true_iff in H. destruct H as [Hc Hl].
    destruct j as [|j].
    + cbn in Hj. injection Hj as ->.
      rewrite Hq in Hc. cbn [negb orb] in Hc.
      rewrite (existsb_nth_error P (b :: l) i a Hi Hp) in Hc. discriminate.
    + destruct i as [|i]; [lia|].
      cbn in Hi, Hj. specialize (IH Hl i j a b Hi Hj Hp Hq). lia.
Qed.

Lemma zones_firstb_sound (l : list DrawCmd) :
  zones_firstb l = true -> zones_first l.
Proof.
  unfold zones_firstb, zones_first. intros H.
  apply andb_true_iff in H. destruct H as [H H3].
  apply andb_true_iff in H. destruct H as [H1 H2].
  repeat split; apply precedesb_sound; assumption.
Qed.

(** ** Zone ordering *)

(** C1.  In every image saved by the run, every zone pie slice is drawn
    before the inner face circle and before every major and every minor
    tick.  The six colour-zone gauges each have three zones, an inner
    face circle and ticks of both kinds, so the property is not vacuous
    for them; [create_standard_color_gauge] has it whatever its
    arguments are. *)
Theorem zones_precede_face_and_ticks :
  Forall (fun s => zones_first (im_cmds (sv_image s))) (saved final_world) /\
  Forall (fun f => zones_first (saved_cmds f) /\
                   List.length (filter is_zone (saved_cmds f)) = 3%nat /\
                   existsb is_inner_face (saved_cmds f) = true /\
                   existsb is_major_tick (saved_cmds f) = true /\
                   existsb is_minor_tick (saved_cmds f) = true)
         zone_gauge_files /\
  (forall filename title subtitle,
      zones_first (cmds_of (create_standard_color_gauge filename title subtitle))) /\
  zones_first (cmds_of thrust_gauge) /\
  zones_first (cmds_of fuel_gauge).
Proof.
  split; [|split; [|split; [|split]]].
  - apply Forall_forall. intros s Hs. apply zones_firstb_sound.
    revert s Hs. apply forallb_forall. vm_compute. reflexivity.
  - repeat constructor; try (apply zones_firstb_sound); vm_compute; reflexivity.
  - intros filename title subtitle. apply zones_firstb_sound. vm_compute. reflexivity.
  - apply zones_firstb_sound. vm_compute. reflexivity.
  - apply zones_firstb_sound. vm_compute. reflexivity.
Qed.

(** ** Tick counts *)

Lemma gauge_type_cases (gauge_type : string) :
  gauge_type = "fuel" \/ gauge_type = "compass" \/
  ((gauge_type =? "fuel") = false /\ (gauge_type =? "compass") = false).
Proof.
  destruct (String.eqb_spec gauge_type "fuel") as [->|_]; [now left|].
  destruct (String.eqb_spec gauge_type "compass") as [->|_]; [now right; left|].
  right; right; split; reflexivity.
Qed.

(** C3, as the specification states it, fails on the standard arc: nine
    major angles, twenty-five minor-step angles, and 9 * 3 = 27. *)
Lemma major_times_ratio_counterexample :
  (List.length (gauge_angles "standard") * 3 <>
   List.length (gauge_minor_angles "standard"))%nat.
Proof. vm_compute. discriminate. Qed.

(** C3, amended.  With ratio 3 between the 30 degree and 10 degree steps,
    the compass arc (upper bound excluded) has major count * 3 minor-step
    angles, and every arc with both end points included (the standard arc
    of [create_gauge], its fuel arc, the script's fuel gauge and the
    thrust family) has (major count - 1) * 3 + 1 of them. *)
Theorem tick_counts_by_arc :
  (forall gauge_type,
      let major := Z.of_nat (List.length (gauge_angles gauge_type)) in
      let minor := Z.of_nat (List.length (gauge_minor_angles gauge_type)) in
      if gauge_type =? "compass" then major * 3 = minor
      else (major - 1) * 3 + 1 = minor) /\
  (Z.of_nat (List.length fuel_angles) - 1) * 3 + 1 =
    Z.of_nat (List.length fuel_minor_angles) /\
  Forall (fun f =>
            let major := Z.of_nat (List.length (major_tick_angles (saved_cmds f))) in
            let drawn_minor := Z.of_nat (List.length (minor_tick_angles (saved_cmds f))) in
            major = 9 /\ (major - 1) * 3 + 1 = major + drawn_minor)
         standard_family_files.
Proof.
  split; [|split].
  - intros gauge_type.
    destruct (gauge_type_cases gauge_type) as [-> | [-> | [Hf Hc]]].
    + vm_compute. reflexivity.
    + vm_compute. reflexivity.
    + unfold gauge_angles, gauge_minor_angles. rewrite Hf, Hc.
      vm_compute. reflexivity.
  - vm_compute. reflexivity.
  - repeat constructor; vm_compute; reflexivity.
Qed.

(** ** Angle generation *)

(** C6, as the specification states it, fails on the fuel gauge the
    script draws: its tick angles are not all within 180..360 (the tick
    at 0 degrees is one of them). *)
Lemma fuel_ticks_span_counterexample :
  ~ Forall (fun a => 180 <= a <= 360)
           (major_tick_angles (saved_cmds "images/fuel-gauge.png") ++
            minor_tick_angles (saved_cmds "images/fuel-gauge.png"))%list.
Proof.
  intros H. rewrite Forall_forall in H.
  assert (Hin : In 0 (major_tick_angles (saved_cmds "images/fuel-gauge.png") ++
                      minor_tick_angles (saved_cmds "images/fuel-gauge.png"))%list)
    by (vm_compute; tauto).
  specialize (H 0 Hin). lia.
Qed.

(** C6, amended.  [create_gauge] generates, for each arc type, the
    increasing sequence of all multiples of the 10 degree step from
    [start_angle] up to [end_angle] included, with arc (-120, 120) for
    standard and (180, 360) for fuel, and up to 360 excluded for
    compass.  The fuel gauge drawn by the script takes its ticks from
    [270, 300, 330, 0, 30, 60, 90] and 270..350, 0..90 instead: the
    180..360 sequence turned by 90 degrees modulo 360. *)
Theorem angle_generation_by_arc :
  (forall gauge_type a,
      In a (gauge_minor_angles gauge_type) <->
      fst (gauge_arc gauge_type) <= a /\
      (if gauge_type =? "compass" then a < snd (gauge_arc gauge_type)
       else a <= snd (gauge_arc gauge_type)) /\
      (a - fst (gauge_arc gauge_type)) mod 10 = 0) /\
  (forall gauge_type,
      StronglySorted Z.lt (gauge_minor_angles gauge_type) /\
      Z.of_nat (List.length (gauge_minor_angles gauge_type)) =
        (snd (gauge_arc gauge_type) - fst (gauge_arc gauge_type)) / 10 +
        (if gauge_type =? "compass" then 0 else 1)) /\
  gauge_arc "standard" = (-120, 120) /\
  gauge_arc "fuel" = (180, 360) /\
  gauge_arc "compass" = (0, 360) /\
  major_tick_angles (saved_cmds "images/fuel-gauge.png") = [270; 300; 330; 0; 30; 60; 90] /\
  major_tick_angles (saved_cmds "images/fuel-gauge.png") =
    map (fun a => (a + 90) mod 360) (gauge_angles "fuel") /\
  fuel_minor_angles = map (fun a => (a + 90) mod 360) (gauge_minor_angles "fuel").
Proof.
  split; [|split; [|repeat split; vm_compute; reflexivity]].
  - intros gauge_type a.
    destruct (gauge_type_cases gauge_type) as [-> | [-> | [Hf Hc]]];
      unfold gauge_minor_angles, gauge_arc;
      try rewrite Hf, Hc; cbn [String.eqb Ascii.eqb Bool.eqb fst snd];
      rewrite py_range_In by lia; lia.
  - intros gauge_type.
    destruct (gauge_type_cases gauge_type) as [-> | [-> | [Hf Hc]]];
      unfold gauge_minor_angles, gauge_arc;
      try rewrite Hf, Hc; cbn [String.eqb Ascii.eqb Bool.eqb fst snd];
      (split; [vm_compute; repeat constructor | vm_compute; reflexivity]).
Qed.

(** ** Zone spans *)

Ltac disjoint_zones :=
  let i := fresh "i" in let j := fresh "j" in
  let Hi := fresh "Hi" in let Hj := fresh "Hj" in
  let Hne := fresh "Hne" in let Hci := fresh "Hci" in let Hcj := fresh "Hcj" in
  intros i j ? ? ? Hi Hj Hne Hci Hcj;
  destruct i as [|[|[|i]]]; destruct j as [|[|[|j]]];
  cbn in Hi, Hj;
  try (destruct i; discriminate); try (destruct j; discriminate);
  try congruence;
  injection Hi as <-; injection Hj as <-;
  unfold covers in Hci, Hcj; cbn [fst snd] in Hci, Hcj;
  apply Z.ltb_lt in Hci, Hcj;
  vm_compute span in Hci, Hcj;
  Z.to_euclidean_division_equations; lia.

Lemma standard_zones_disjoint :
  pairwise_disjoint [(150, 230); (230, 310); (310, 390)].
Proof. disjoint_zones. Qed.

Lemma fuel_zones_disjoint :
  pairwise_disjoint [(270, 330); (330, 30); (30, 90)].
Proof. disjoint_zones. Qed.

(** C4.  Each gauge of the thrust / engine / positive / weight /
    negative family has three zones whose spans, end points taken modulo
    360, add up to 240 degrees, and no degree lies in two of them. *)
Theorem standard_family_zone_spans :
  Forall (fun f =>
            let zs := zone_angles (saved_cmds f) in
            List.length zs = 3%nat /\ total_span zs = 240 /\ pairwise_disjoint zs)
         standard_family_files /\
  (forall filename title subtitle,
      let zs := zone_angles (cmds_of (create_standard_color_gauge filename title subtitle)) in
      List.length zs = 3%nat /\ total_span zs = 240 /\ pairwise_disjoint zs) /\
  (let zs := zone_angles (cmds_of thrust_gauge) in
   List.length zs = 3%nat /\ total_span zs = 240 /\ pairwise_disjoint zs).
Proof.
  split; [|split].
  - repeat constructor; try (vm_compute; reflexivity);
      change (pairwise_disjoint [(150, 230); (230, 310); (310, 390)]);
      apply standard_zones_disjoint.
  - intros filename title subtitle.
    repeat split; try (vm_compute; reflexivity).
    change (pairwise_disjoint [(150, 230); (230, 310); (310, 390)]).
    apply standard_zones_disjoint.
  - repeat split; try (vm_compute; reflexivity).
    change (pairwise_disjoint [(150, 230); (230, 310); (310, 390)]).
    apply standard_zones_disjoint.
Qed.

(** C5.  The fuel gauge has three zones whose spans, end points taken
    modulo 360, add up to 180 degrees, and no degree lies in two of
    them. *)
Theorem fuel_zone_spans :
  let zs := zone_angles (saved_cmds "images/fuel-gauge.png") in
  zs = zone_angles (cmds_of fuel_gauge) /\
  List.length zs = 3%nat /\ total_span zs = 180 /\ pairwise_disjoint zs.
Proof.
  repeat split; try (vm_compute; reflexivity).
  change (pairwise_disjoint [(270, 330); (330, 30); (30, 90)]).
  apply fuel_zones_disjoint.
Qed.

(** ** Rotation *)

(** C2, as the specification states it, fails on the fuel gauge, the
    semicircle turned by 90 degrees: its tick angles are not generated
    angles with an offset added, whatever the offset and whichever arc of
    [create_gauge] they are generated from.  They are written out with
    the rotation and the wrap through 0 already in them (270, 300, 330,
    0, 30, 60, 90), and so is its zone (330, 30), whose end lies below
    its start. *)
Lemma rotation_fuel_counterexample :
  (forall gauge_type,
      ~ exists offset,
          major_tick_angles (saved_cmds "images/fuel-gauge.png") =
          rotate_angles offset (gauge_angles gauge_type)) /\
  ~ Forall (fun z => exists offset s e,
                s <= e /\ z = rotate_zone offset (s, e))
           (zone_angles (saved_cmds "images/fuel-gauge.png")).
Proof.
  assert (Hfuel : major_tick_angles (saved_cmds "images/fuel-gauge.png") =
                  [270; 300; 330; 0; 30; 60; 90]) by (vm_compute; reflexivity).
  assert (Hz : zone_angles (saved_cmds "images/fuel-gauge.png") =
               [(270, 330); (330, 30); (30, 90)]) by (vm_compute; reflexivity).
  assert (H30 : py_range (-120) 121 30 = [-120; -90; -60; -30; 0; 30; 60; 90; 120])
    by (vm_compute; reflexivity).
  split.
  - intros gauge_type [offset H]. rewrite Hfuel in H. unfold rotate_angles in H.
    destruct (gauge_type_cases gauge_type) as [-> | [-> | [Hf Hc]]].
    + change (gauge_angles "fuel") with [180; 210; 240; 270; 300; 330; 360] in H.
      cbn [map] in H.
      assert (H2 : 330 = 240 + offset)
        by exact (f_equal (fun l => nth 2 l 0) H).
      assert (H3 : 0 = 270 + offset)
        by exact (f_equal (fun l => nth 3 l 0) H).
      lia.
    + apply (f_equal (@List.length Z)) in H. rewrite length_map in H.
      vm_compute in H. discriminate.
    + unfold gauge_angles in H. rewrite Hf, Hc in H. cbv zeta in H.
      change (120 + 1) with 121 in H. rewrite H30 in H.
      apply (f_equal (@List.length Z)) in H. cbn in H. discriminate.
  - rewrite Hz. intros H.
    apply Forall_inv_tail in H. apply Forall_inv in H.
    destruct H as (offset & s & e & Hle & Heq).
    unfold rotate_zone in Heq. cbn [fst snd] in Heq.
    assert (H1 : 330 = s + offset) by exact (f_equal fst Heq).
    assert (H2 : 30 = e + offset) by exact (f_equal snd Heq).
    lia.
Qed.

(** C2, amended.  In the thrust / engine / positive / weight / negative
    family the rotation is applied to the ticks by adding 90 + 180 = 270
    to every generated angle before [math.radians]: the points of the
    major ticks, the minor ticks and the labels are those of the
    specification's layout at offset 270, and the unrotated standard
    gauge of [create_gauge] has those of the layout at offset 0; so every
    computed point of the rotated gauge is the unrotated gauge's point at
    the same place, same centre and radius, turned by exactly 270.  The
    zone angles of the family are the literals (150, 230), (230, 310),
    (310, 390), which coincide with the thirds of the -120..120 arc
    turned by 270; the unrotated standard gauge has no zone.  The fuel
    gauge adds no offset: the angles it hands to [math.radians] are the
    literals of its tick lists, and its zones are literals too. *)
Theorem rotation_applied_to_ticks :
  forall filename title subtitle filename' title' subtitle',
    let rotated := cmds_of (create_standard_color_gauge filename title subtitle) in
    let unrotated := cmds_of (create_gauge filename' "standard" title' subtitle') in
    (major_tick_points rotated = spec_major_tick_points (90 + 180) /\
     minor_tick_points rotated = spec_minor_tick_points (90 + 180) /\
     label_points rotated = spec_label_points (90 + 180)) /\
    (major_tick_points (cmds_of thrust_gauge) = spec_major_tick_points (90 + 180) /\
     minor_tick_points (cmds_of thrust_gauge) = spec_minor_tick_points (90 + 180) /\
     label_points (cmds_of thrust_gauge) = spec_label_points (90 + 180)) /\
    (major_tick_points unrotated = spec_major_tick_points 0 /\
     minor_tick_points unrotated = spec_minor_tick_points 0 /\
     label_points unrotated = spec_label_points 0) /\
    flat_map computed_points rotated =
      map (rotate_coord 270) (flat_map computed_points unrotated) /\
    flat_map computed_points (cmds_of thrust_gauge) =
      map (rotate_coord 270) (flat_map computed_points unrotated) /\
    (zone_angles rotated = [(150, 230); (230, 310); (310, 390)] /\
     zone_angles rotated =
       map (rotate_zone (90 + 180)) [(-120, -40); (-40, 40); (40, 120)] /\
     zone_angles unrotated = []) /\
    (major_tick_angles (cmds_of fuel_gauge) = fuel_angles /\
     minor_tick_angles (cmds_of fuel_gauge) =
       filter (fun a => negb (py_in a fuel_angles)) fuel_minor_angles /\
     zone_angles (cmds_of fuel_gauge) = [(270, 330); (330, 30); (30, 90)]).
Proof.
  intros filename title subtitle filename' title' subtitle' rotated unrotated.
  subst rotated unrotated.
  destruct title' as [|c t]; destruct subtitle' as [|c' t'];
    repeat split; vm_compute; reflexivity.
Qed.

(** ** The engine gauge *)

(** C7.  The engine gauge has nine major ticks; its labels are "0", "50"
    and "100", drawn at the angles of major ticks 0, 4 and 8; it has
    three zone commands, each before every tick; its title is "ENGINE"
    and its subtitle "Condition". *)
Theorem engine_gauge_scenario :
  let l := saved_cmds "images/engine-gauge.png" in
  l = cmds_of (create_standard_color_gauge "images/engine-gauge.png" "ENGINE" "Condition") /\
  List.length (filter is_major_tick l) = 9%nat /\
  labels_at_major l =
    [Some "0"; None; None; None; Some "50"; None; None; None; Some "100"] /\
  map snd (labels_drawn l) = ["0"; "50"; "100"] /\
  List.length (filter is_zone l) = 3%nat /\
  precedes is_zone is_tick l /\
  filter is_title l = [Text (Int 200) (Int 70) "ENGINE" "#000000" "mm";
                       Text (Int 200) (Int 330) "Condition" "#666666" "mm"].
Proof.
  repeat split; try (vm_compute; reflexivity).
  apply precedesb_sound. vm_compute. reflexivity.
Qed.

(** ** The fuel gauge *)

(** C8, as the specification states it, fails on the icon: the overlay
    of the fuel gauge is drawn with five shape commands, not four. *)
Lemma fuel_icon_counterexample :
  List.length (overlay (saved_cmds "images/fuel-gauge.png")) <> 4%nat.
Proof. vm_compute. discriminate. Qed.

(** C8, amended.  The fuel gauge has seven major ticks, over an arc of
    180 degrees from the first to the last, labelled "F" at the first and
    "E" at the last and unlabelled in between.  It has one overlay, the
    fuel pump icon, drawn between the ticks and the title in four parts
    with five shape commands: three rectangles (body, nozzle, screen) and
    an ellipse with a polygon (droplet). *)
Theorem fuel_gauge_scenario :
  let l := saved_cmds "images/fuel-gauge.png" in
  l = cmds_of fuel_gauge /\
  labels_at_major l = [Some "F"; None; None; None; None; None; Some "E"] /\
  labels_at_major l =
    map (fun s => if truthy s then Some s else None) fuel_labels /\
  List.length (major_tick_angles l) = 7%nat /\
  map (fun a => (a - 270) mod 360) (major_tick_angles l) = [0; 30; 60; 90; 120; 150; 180] /\
  overlay l = icon_cmds /\
  icon_cmds = [Rectangle [120; 165; 160; 215] "#666666" (Some "#333333") None;
               Rectangle [115; 175; 120; 185] "#666666" (Some "#333333") None;
               Rectangle [128; 175; 152; 185] "#ffffff" (Some "#333333") (Some 1);
               Ellipse [134; 195; 146; 207] "#666666" None None;
               Polygon [(140, 187); (134, 195); (146, 195)] "#666666"] /\
  exists pre post,
    l = (pre ++ icon_cmds ++ post)%list /\
    Forall (fun c => ~ In c icon_cmds) (pre ++ post)%list.
Proof.
  repeat split; try (vm_compute; reflexivity).
  exists (firstn 26 (saved_cmds "images/fuel-gauge.png")),
         (skipn 31 (saved_cmds "images/fuel-gauge.png")).
  split; [vm_compute; reflexivity|].
  vm_compute. repeat constructor; intuition discriminate.
Qed.

(** ** The complete run *)

Lemma distinctb_sound (l : list string) : distinctb l = true -> NoDup l.
Proof.
  induction l as [|x l IH]; intros H; [constructor|].
  cbn [distinctb] in H. apply andb_true_iff in H. destruct H as [Hx Hl].
  constructor; [|apply IH; exact Hl].
  intros Hin. apply negb_true_iff in Hx.
  assert (existsb (String.eqb x) l = true); [|congruence].
  apply existsb_exists. exists x. split; [exact Hin|apply String.eqb_refl].
Qed.

(** C9.  A complete run issues eight save commands, one per gauge, under
    the eight fixed names inside the single directory [images], all in
    PNG format; every canvas created is 400 by 400, of mode RGBA, with a
    background of alpha 0, and each is saved exactly once. *)
Theorem run_saves_eight_pngs :
  map sv_filename (saved final_world) = map (fun n => "images/" ++ n) gauge_names /\
  List.length (saved final_world) = 8%nat /\
  NoDup (map sv_filename (saved final_world)) /\
  Forall (fun s => sv_format s = "PNG") (saved final_world) /\
  map sv_image (saved final_world) = images final_world /\
  Forall (fun im => im_mode im = "RGBA" /\ im_size im = (400, 400) /\
                    im_color im = (255, 255, 255, 0))
         (images final_world).
Proof.
  split; [|split; [|split; [|split; [|split]]]].
  - vm_compute. reflexivity.
  - vm_compute. reflexivity.
  - apply distinctb_sound. vm_compute. reflexivity.
  - vm_compute. repeat constructor.
  - vm_compute. reflexivity.
  - vm_compute. repeat constructor.
Qed.

(** ** Thrust gauge against the helper *)

(** C10.  The script-level thrust code emits the very draw sequence (and
    save command) that [create_standard_color_gauge] emits for the
    thrust file name, title and subtitle; for any other arguments the
    two sequences agree once the texts of title and subtitle are
    blanked, and the title and subtitle are the only fixed-point texts.
    So all five gauges of the family, as saved by the run, share one
    layout up to the text shown. *)
Theorem thrust_matches_standard_color_gauge :
  cmds_of thrust_gauge =
    cmds_of (create_standard_color_gauge "images/thrust-gauge.png" "THRUST" "Power") /\
  saved (exec thrust_gauge empty_world) =
    saved (exec (create_standard_color_gauge "images/thrust-gauge.png" "THRUST" "Power")
                empty_world) /\
  (forall filename title subtitle,
      let l := cmds_of (create_standard_color_gauge filename title subtitle) in
      map erase_title l = map erase_title (cmds_of thrust_gauge) /\
      filter is_title l = [Text (Int 200) (Int 70) title "#000000" "mm";
                           Text (Int 200) (Int 330) subtitle "#666666" "mm"] /\
      map sv_filename (saved (exec (create_standard_color_gauge filename title subtitle)
                                   empty_world)) = [filename]) /\
  Forall (fun f => map erase_title (saved_cmds f) =
                   map erase_title (saved_cmds "images/thrust-gauge.png"))
         standard_family_files.
Proof.
  split; [|split; [|split]].
  - vm_compute. reflexivity.
  - vm_compute. reflexivity.
  - intros filename title subtitle. repeat split; vm_compute; reflexivity.
  - repeat constructor; vm_compute; reflexivity.
Qed.

(** * Further properties of the script *)

(** ** Drawing programs in an arbitrary world *)

Lemma update_nth_ext {A : Type} (n : nat) (f g : A -> A) (l : list A) :
  (forall x, f x = g x) -> update_nth n f l = update_nth n g l.
Proof.
  intros Hfg. revert n. induction l as [|x l IH]; intros n; [destruct n; reflexivity|].
  destruct n as [|n]; cbn; [rewrite Hfg | rewrite IH]; reflexivity.
Qed.

Lemma update_nth_id {A : Type} (n : nat) (l : list A) :
  update_nth n (fun x => x) l = l.
Proof.
  revert n. induction l as [|x l IH]; intros n; [destruct n; reflexivity|].
  destruct n as [|n]; cbn; [|rewrite IH]; reflexivity.
Qed.

Lemma update_nth_twice {A : Type} (n : nat) (f g : A -> A) (l : list A) :
  update_nth n g (update_nth n f l) = update_nth n (fun x => g (f x)) l.
Proof.
  revert n. induction l as [|x l IH]; intros n; [destruct n; reflexivity|].
  destruct n as [|n]; cbn; [|rewrite IH]; reflexivity.
Qed.

Lemma update_nth_last {A : Type} (f : A -> A) (l : list A) (x : A) :
  update_nth (List.length l) f (l ++ [x])%list = (l ++ [f x])%list.
Proof.
  induction l as [|y l IH]; cbn; [|rewrite IH]; reflexivity.
Qed.

Lemma nth_error_last {A : Type} (l : list A) (x : A) :
  nth_error (l ++ [x])%list (List.length l) = Some x.
Proof.
  induction l as [|y l IH]; cbn; [reflexivity | exact IH].
Qed.

Lemma nth_error_update_nth {A : Type} (n : nat) (f : A -> A) (l : list A) (x : A) :
  nth_error l n = Some x -> nth_error (update_nth n f l) n = Some (f x).
Proof.
  revert n. induction l as [|y l IH]; intros n H; [destruct n; discriminate|].
  destruct n as [|n]; cbn in *; [congruence | apply IH; exact H].
Qed.

Lemma add_cmds_nil (im : Image) : add_cmds [] im = im.
Proof. destruct im. unfold add_cmds. cbn. rewrite app_nil_r. reflexivity. Qed.

Lemma add_cmds_app (cs1 cs2 : list DrawCmd) (im : Image) :
  add_cmds cs2 (add_cmds cs1 im) = add_cmds (cs1 ++ cs2) im.
Proof. unfold add_cmds. cbn. rewrite app_assoc. reflexivity. Qed.

Lemma push_nil (h : handle) (w : World) : push h [] w = w.
Proof.
  destruct w as [ims sv out op]. unfold push. cbn. f_equal.
  rewrite (update_nth_ext h (add_cmds []) (fun x => x)) by apply add_cmds_nil.
  apply update_nth_id.
Qed.

Lemma push_app (h : handle) (cs1 cs2 : list DrawCmd) (w : World) :
  push h cs2 (push h cs1 w) = push h (cs1 ++ cs2) w.
Proof.
  unfold push. cbn. f_equal. rewrite update_nth_twice.
  apply update_nth_ext. intros im. apply add_cmds_app.
Qed.

Lemma appends_ret (h : handle) : appends h [] (ret tt).
Proof. intros w. unfold ret. rewrite push_nil. reflexivity. Qed.

Lemma appends_emit (h : handle) (c : DrawCmd) : appends h [c] (emit h c).
Proof. intros w. reflexivity. Qed.

Lemma appends_bind (h : handle) (cs1 cs2 : list DrawCmd) (m1 m2 : M unit) :
  appends h cs1 m1 -> appends h cs2 m2 -> appends h (cs1 ++ cs2) (m1 ;; m2).
Proof.
  intros H1 H2 w. unfold bind. rewrite H1. cbv beta iota.
  rewrite H2, push_app. reflexivity.
Qed.

Lemma appends_when (h : handle) (cs : list DrawCmd) (b : bool) (m : M unit) :
  appends h cs m -> appends h (if b then cs else []) (when b m).
Proof. intros H. destruct b; [exact H | apply appends_ret]. Qed.

Lemma appends_option {A : Type} (h : handle) (o : option A)
  (f : A -> list DrawCmd) (k : A -> M unit) :
  (forall a, appends h (f a) (k a)) ->
  appends h (match o with Some a => f a | None => [] end)
            (match o with Some a => k a | None => ret tt end).
Proof. intros H. destruct o; [apply H | apply appends_ret]. Qed.

Lemma appends_for {A : Type} (h : handle) (xs : list A)
  (f : A -> list DrawCmd) (body : A -> M unit) :
  (forall x, appends h (f x) (body x)) ->
  appends h (flat_map f xs) (for_ xs body).
Proof.
  intros H. induction xs as [|x xs IH]; cbn [for_ flat_map].
  - apply appends_ret.
  - apply appends_bind; [apply H | exact IH].
Qed.

Lemma appends_for_pair {A B : Type} (h : handle) (xs : list (A * B))
  (f : A -> B -> list DrawCmd) (body : A -> B -> M unit) :
  (forall a b, appends h (f a b) (body a b)) ->
  appends h (flat_map (fun p => f (fst p) (snd p)) xs)
            (for_ xs (fun '(a, b) => body a b)).
Proof.
  intros H. apply appends_for. intros [a b]. apply H.
Qed.

Lemma finishes_save_print (h : handle) (filename msg : string) :
  finishes h [] filename msg (save h filename "PNG" ;; print msg).
Proof.
  intros w im Him. unfold bind, save, print. rewrite Him.
  destruct (openable w filename); cbn.
  - rewrite add_cmds_nil.
    rewrite (update_nth_ext h (add_cmds []) (fun x => x)) by apply add_cmds_nil.
    rewrite update_nth_id. reflexivity.
  - rewrite push_nil. reflexivity.
Qed.

Lemma finishes_bind (h : handle) (cs1 cs2 : list DrawCmd) (filename msg : string)
  (m1 m2 : M unit) :
  appends h cs1 m1 -> finishes h cs2 filename msg m2 ->
  finishes h (cs1 ++ cs2) filename msg (m1 ;; m2).
Proof.
  intros H1 H2 w im Him. unfold bind. rewrite H1. cbv beta iota.
  rewrite (H2 (push h cs1 w) (add_cmds cs1 im)).
  - cbn [push openable]. destruct (openable w filename).
    + unfold push. cbn. rewrite update_nth_twice, add_cmds_app.
      f_equal. f_equal. apply update_nth_ext. intros x. apply add_cmds_app.
    + rewrite push_app. reflexivity.
  - unfold push. cbn. apply nth_error_update_nth. exact Him.
Qed.

Lemma finishes_new (cs : list DrawCmd) (filename msg : string)
  (body : handle -> handle -> M unit) :
  (forall h, finishes h cs filename msg (body h h)) ->
  forall w,
    (img <- Image_new "RGBA" (400, 400) (255, 255, 255, 0) ;;
     draw <- ImageDraw_Draw img ;;
     body img draw) w
    = if openable w filename then (Done tt, gauge_effect cs filename msg w)
      else (Raised (OSError filename), drawn_only cs w).
Proof.
  intros H w. unfold bind, Image_new, ImageDraw_Draw, ret.
  rewrite (H _ _ (mkImage "RGBA" (400, 400) (255, 255, 255, 0) [])).
  - cbn [openable]. unfold push, gauge_effect, drawn_only. cbn.
    rewrite update_nth_last. reflexivity.
  - cbn. apply nth_error_last.
Qed.

Ltac appends_tac :=
  lazymatch goal with
  | |- appends _ _ (emit _ _) => apply appends_emit
  | |- appends _ _ (ret tt) => apply appends_ret
  | |- appends _ _ (when _ _) => eapply appends_when; appends_tac
  | |- appends _ _ (for_ _ (fun '(_, _) => _)) =>
      eapply appends_for_pair; intros; appends_tac
  | |- appends _ _ (for_ _ _) => eapply appends_for; intros; appends_tac
  | |- appends _ _ (match _ with Some _ => _ | None => _ end) =>
      eapply appends_option; intros; appends_tac
  | |- appends _ _ (bind _ _) => eapply appends_bind; appends_tac
  end.

Ltac finishes_tac :=
  lazymatch goal with
  | |- finishes _ _ _ _ (bind (save _ _ _) _) => apply finishes_save_print
  | |- finishes _ _ _ _ (bind _ _) =>
      eapply finishes_bind; [appends_tac | finishes_tac]
  end.

Lemma draws_one_gauge_intro (m : M unit) (filename msg : string) :
  (exists cs, forall w,
      m w = if openable w filename then (Done tt, gauge_effect cs filename msg w)
            else (Raised (OSError filename), drawn_only cs w)) ->
  draws_one_gauge m filename msg.
Proof.
  intros [cs H] w.
  assert (Hcs : cmds_of m = cs) by (unfold cmds_of, exec; rewrite H; reflexivity).
  rewrite Hcs. apply H.
Qed.

Ltac one_gauge :=
  apply draws_one_gauge_intro; eexists; cbv zeta;
  apply finishes_new; intros; finishes_tac.

Lemma create_standard_color_gauge_draws (filename title subtitle : string) :
  draws_one_gauge (create_standard_color_gauge filename title subtitle) filename
                  ("Created " ++ filename ++ " (white background with color zones)").
Proof. unfold create_standard_color_gauge. one_gauge. Qed.

Lemma create_gauge_draws (filename gauge_type title subtitle : string) :
  draws_one_gauge (create_gauge filename gauge_type title subtitle) filename
                  ("Created " ++ filename).
Proof. unfold create_gauge. one_gauge. Qed.

Lemma thrust_gauge_draws :
  draws_one_gauge thrust_gauge "images/thrust-gauge.png"
    "Created images/thrust-gauge.png (white background with color zones, rotated 90° CCW)".
Proof. unfold thrust_gauge. one_gauge. Qed.

Lemma fuel_gauge_draws :
  draws_one_gauge fuel_gauge "images/fuel-gauge.png"
    "Created images/fuel-gauge.png (white background with black fuel icon)".
Proof. unfold fuel_gauge, fuel_icon. one_gauge. Qed.

Lemma horizon_gauge_draws :
  draws_one_gauge horizon_gauge "images/horizon-gauge.png"
    "Created images/horizon-gauge.png".
Proof. unfold horizon_gauge. one_gauge. Qed.



(** X3.  The thrust, fuel and horizon sections of the script each draw one
    image in any world and, if their fixed file name can be opened, save
    it and print one line; if it cannot, they raise [OSError] with
    nothing saved or printed.  The rest of the world stays as it was. *)
Theorem script_sections_frame :
  draws_one_gauge thrust_gauge "images/thrust-gauge.png"
    "Created images/thrust-gauge.png (white background with color zones, rotated 90° CCW)" /\
  draws_one_gauge fuel_gauge "images/fuel-gauge.png"
    "Created images/fuel-gauge.png (white background with black fuel icon)" /\
  draws_one_gauge horizon_gauge "images/horizon-gauge.png"
    "Created images/horizon-gauge.png".
Proof.
  split; [|split].
  - apply thrust_gauge_draws.
  - apply fuel_gauge_draws.
  - apply horizon_gauge_draws.
Qed.

(** ** The whole script in an arbitrary world *)

Lemma bind_gauge {B : Type} (m : M unit) (filename msg : string) (k : M B) (w : World) :
  draws_one_gauge m filename msg ->
  (m ;; k) w = if openable w filename
               then k (gauge_effect (cmds_of m) filename msg w)
               else (Raised (OSError filename), drawn_only (cmds_of m) w).
Proof.
  intros H. unfold bind. rewrite H.
  destruct (openable w filename); reflexivity.
Qed.

Lemma script_jobs_draw :
  Forall (fun j => draws_one_gauge (job_prog j) (job_file j) (job_msg j)) script_jobs.
Proof.
  unfold script_jobs. repeat constructor; cbn [job_prog job_file job_msg].
  - apply thrust_gauge_draws.
  - apply create_standard_color_gauge_draws.
  - apply create_standard_color_gauge_draws.
  - apply create_standard_color_gauge_draws.
  - apply create_standard_color_gauge_draws.
  - apply fuel_gauge_draws.
  - apply create_gauge_draws.
  - apply horizon_gauge_draws.
Qed.

Lemma main_as_jobs :
  main = (print "Generating gauge images..." ;;
          seq_jobs script_jobs
            (print (newline ++ "All gauge images generated successfully!") ;;
             print "Images are saved in the 'images' folder")).
Proof.
  unfold main, seq_jobs, script_jobs. cbn [fold_right job_prog]. reflexivity.
Qed.

Lemma split_jobs_same (w w' : World) (jobs : list gauge_job) :
  (forall f, openable w f = openable w' f) ->
  split_jobs w jobs = split_jobs w' jobs.
Proof.
  intros H. induction jobs as [|j js IH]; cbn [split_jobs]; [reflexivity|].
  rewrite H, IH. reflexivity.
Qed.

Lemma seq_jobs_run (jobs : list gauge_job) (k : M unit) :
  Forall (fun j => draws_one_gauge (job_prog j) (job_file j) (job_msg j)) jobs ->
  forall w,
    seq_jobs jobs k w =
    match split_jobs w jobs with
    | (done, None) => k (worlds_after done w)
    | (done, Some j) =>
        (Raised (OSError (job_file j)),
         drawn_only (cmds_of (job_prog j)) (worlds_after done w))
    end.
Proof.
  induction jobs as [|j js IH]; intros Hok w.
  - reflexivity.
  - inversion Hok as [|j' js' Hj Hjs]; subst.
    cbn [seq_jobs fold_right split_jobs].
    rewrite (bind_gauge _ _ _ _ _ Hj).
    destruct (openable w (job_file j)); [|reflexivity].
    fold (seq_jobs js k). rewrite (IH Hjs).
    rewrite (split_jobs_same _ w) by reflexivity.
    destruct (split_jobs w js) as [done [j'|]]; reflexivity.
Qed.

Lemma worlds_after_fields (jobs : list gauge_job) (w : World) :
  images (worlds_after jobs w) = (images w ++ map job_image jobs)%list /\
  saved (worlds_after jobs w) = (saved w ++ map job_save jobs)%list /\
  stdout (worlds_after jobs w) = (stdout w ++ map job_msg jobs)%list /\
  openable (worlds_after jobs w) = openable w.
Proof.
  revert w. induction jobs as [|j js IH]; intros w.
  - cbn. rewrite !app_nil_r. repeat split; reflexivity.
  - cbn [worlds_after fold_left map].
    destruct (IH (job_effect j w)) as (Hi & Hs & Ho & Hp).
    unfold worlds_after in *. rewrite Hi, Hs, Ho, Hp.
    unfold job_effect, gauge_effect. cbn [images saved stdout openable].
    rewrite <- !app_assoc. repeat split; reflexivity.
Qed.

Lemma split_jobs_all (w : World) (jobs : list gauge_job) :
  forallb (openable w) (map job_file jobs) = true ->
  split_jobs w jobs = (jobs, None).
Proof.
  induction jobs as [|j js IH]; intros H; [reflexivity|].
  cbn [map forallb] in H. apply andb_true_iff in H. destruct H as [Hj Hjs].
  cbn [split_jobs]. rewrite Hj, (IH Hjs). reflexivity.
Qed.


Lemma script_jobs_files : map job_file script_jobs = script_files.
Proof. reflexivity. Qed.

Lemma script_jobs_final :
  map job_image script_jobs = images final_world /\
  map job_save script_jobs = saved final_world /\
  ("Generating gauge images..." :: map job_msg script_jobs ++
   [(newline ++ "All gauge images generated successfully!")%string;
    "Images are saved in the 'images' folder"])%list = stdout final_world.
Proof. split; [|split]; vm_compute; reflexivity. Qed.

Lemma main_run (w : World) :
  forallb (openable w) script_files = true ->
  main w = (Done tt,
            mkWorld (images w ++ images final_world)%list
                    (saved w ++ saved final_world)%list
                    (stdout w ++ stdout final_world)%list
                    (openable w)).
Proof.
  intros H. rewrite <- script_jobs_files in H.
  destruct script_jobs_final as (Hi & Hs & Ho). rewrite <- Hi, <- Hs, <- Ho.
  rewrite main_as_jobs. unfold bind at 1. unfold print at 1. cbv beta iota.
  rewrite (seq_jobs_run _ _ script_jobs_draw).
  rewrite (split_jobs_same _ w) by reflexivity.
  rewrite (split_jobs_all w script_jobs H).
  unfold bind, print.
  destruct (worlds_after_fields script_jobs
              (mkWorld (images w) (saved w)
                       (stdout w ++ ["Generating gauge images..."])%list (openable w)))
    as (Ei & Es & Eo & Ep).
  cbn [images saved stdout openable].
  rewrite Ei, Es, Eo, Ep. cbn [images saved stdout openable].
  rewrite <- !app_assoc. reflexivity.
Qed.


(** X4.  Run in any world in which its eight files can be opened, the
    script completes and adds its eight images, eight save commands and
    eleven printed lines after what the world already holds; they are
    the ones of a run from the empty world, so nothing it draws or saves
    depends on earlier state. *)
Theorem main_frame (w : World) :
  forallb (openable w) script_files = true ->
  main w = (Done tt,
            mkWorld (images w ++ images final_world)%list
                    (saved w ++ saved final_world)%list
                    (stdout w ++ stdout final_world)%list
                    (openable w)) /\
  List.length (images final_world) = 8%nat /\
  map sv_filename (saved final_world) = script_files /\
  List.length (stdout final_world) = 11%nat.
Proof.
  intros H. split; [apply main_run; exact H|].
  split; [|split]; vm_compute; reflexivity.
Qed.

Lemma main_frame_witness :
  forallb (openable empty_world) script_files = true /\
  main empty_world =
    (Done tt,
     mkWorld (images empty_world ++ images final_world)%list
             (saved empty_world ++ saved final_world)%list
             (stdout empty_world ++ stdout final_world)%list
             (openable empty_world)) /\
  List.length (images final_world) = 8%nat /\
  map sv_filename (saved final_world) = script_files /\
  List.length (stdout final_world) = 11%nat.
Proof.
  split; [reflexivity | apply (main_frame empty_world); reflexivity].
Defined.



(** ** Running the script again *)

Lemma find_over_app {A : Type} (p : A -> bool) (l r : list A) :
  find p (l ++ r)%list =
  match find p l with Some x => Some x | None => find p r end.
Proof.
  induction l as [|x l IH]; cbn; [reflexivity|].
  destruct (p x); [reflexivity | exact IH].
Qed.

Lemma find_app_twice {A : Type} (p : A -> bool) (l r : list A) :
  find p (l ++ l ++ r)%list = find p (l ++ r)%list.
Proof.
  rewrite !find_over_app. destruct (find p l); reflexivity.
Qed.

(** X5.  In a world in which the eight files can be opened, running the
    script twice completes, and every file ends up holding the image it
    held after the first run: the second run saves the same images under
    the same names. *)
Theorem main_twice (w : World) (filename : string) :
  forallb (openable w) script_files = true ->
  fst ((main ;; main) w) = Done tt /\
  saved (exec (main ;; main) w) =
    (saved w ++ saved final_world ++ saved final_world)%list /\
  file_image (saved (exec (main ;; main) w)) filename =
    file_image (saved (exec main w)) filename.
Proof.
  intros H.
  assert (H2 : (main ;; main) w =
               (Done tt,
                mkWorld ((images w ++ images final_world) ++ images final_world)%list
                        ((saved w ++ saved final_world) ++ saved final_world)%list
                        ((stdout w ++ stdout final_world) ++ stdout final_world)%list
                        (openable w))).
  { unfold bind. rewrite (main_run w H). cbv beta iota.
    rewrite main_run by exact H. reflexivity. }
  unfold exec. rewrite H2, (main_run w H). cbn [fst snd saved].
  split; [reflexivity|]. split; [symmetry; apply app_assoc|].
  unfold file_image. rewrite !rev_app_distr.
  rewrite find_app_twice. reflexivity.
Qed.

Lemma main_twice_witness :
  forallb (openable empty_world) script_files = true /\
  fst ((main ;; main) empty_world) = Done tt /\
  saved (exec (main ;; main) empty_world) =
    (saved empty_world ++ saved final_world ++ saved final_world)%list /\
  file_image (saved (exec (main ;; main) empty_world)) "images/fuel-gauge.png" =
    file_image (saved (exec main empty_world)) "images/fuel-gauge.png".
Proof.
  split; [reflexivity|].
  apply (main_twice empty_world "images/fuel-gauge.png"). reflexivity.
Defined.

(** ** [create_gauge] on every gauge type *)

Lemma create_gauge_default (filename gauge_type title subtitle : string) :
  (gauge_type =? "fuel") = false -> (gauge_type =? "compass") = false ->
  create_gauge filename gauge_type title subtitle =
  create_gauge filename "standard" title subtitle.
Proof.
  intros Hf Hc. unfold create_gauge, gauge_angles, gauge_labels, gauge_minor_angles.
  rewrite Hf, Hc. reflexivity.
Qed.

Lemma gauge_lists_default (gauge_type : string) :
  (gauge_type =? "fuel") = false -> (gauge_type =? "compass") = false ->
  gauge_angles gauge_type = gauge_angles "standard" /\
  gauge_labels gauge_type = gauge_labels "standard" /\
  gauge_minor_angles gauge_type = gauge_minor_angles "standard".
Proof.
  intros Hf Hc. unfold gauge_angles, gauge_labels, gauge_minor_angles.
  rewrite Hf, Hc. repeat split; reflexivity.
Qed.

(** Reduce a statement about every gauge type, title and subtitle to the
    three branches of [create_gauge] and to empty or non-empty texts. *)
Ltac by_gauge_type gauge_type title subtitle :=
  let Hf := fresh "Hf" in let Hc := fresh "Hc" in
  destruct (gauge_type_cases gauge_type) as [-> | [-> | [Hf Hc]]];
  [ | | let Ha := fresh "Ha" in let Hl := fresh "Hl" in let Hm := fresh "Hm" in
        rewrite ?(create_gauge_default _ gauge_type _ _ Hf Hc);
        destruct (gauge_lists_default gauge_type Hf Hc) as (Ha & Hl & Hm);
        rewrite ?Ha, ?Hl, ?Hm ];
  destruct title; destruct subtitle.

(** X6.  A gauge type that is neither 'fuel' nor 'compass' is drawn as
    the standard 240 degree gauge, whatever the string is. *)
Theorem create_gauge_unknown_type_is_standard
  (filename gauge_type title subtitle : string) (w : World) :
  (gauge_type =? "fuel") = false -> (gauge_type =? "compass") = false ->
  exec (create_gauge filename gauge_type title subtitle) w =
  exec (create_gauge filename "standard" title subtitle) w /\
  major_tick_angles (cmds_of (create_gauge filename gauge_type title subtitle)) =
    py_range (-120) 121 30.
Proof.
  intros Hf Hc. rewrite (create_gauge_default _ _ _ _ Hf Hc).
  split; [reflexivity|].
  destruct title; destruct subtitle; vm_compute; reflexivity.
Qed.

Lemma create_gauge_unknown_type_witness :
  exec (create_gauge "images/x.png" "speed" "SPEED" "") empty_world =
  exec (create_gauge "images/x.png" "standard" "SPEED" "") empty_world /\
  major_tick_angles (cmds_of (create_gauge "images/x.png" "speed" "SPEED" "")) =
    py_range (-120) 121 30.
Proof.
  apply (create_gauge_unknown_type_is_standard
           "images/x.png" "speed" "SPEED" "" empty_world); reflexivity.
Defined.

(** X7.  [create_gauge] draws the title only when it is not empty, and
    likewise the subtitle: with both empty no text is drawn at a fixed
    point; when drawn, the title is at (200, 80) and the subtitle at
    (200, 320), in this order. *)
Theorem create_gauge_title_guard (filename gauge_type title subtitle : string) :
  filter is_title (cmds_of (create_gauge filename gauge_type title subtitle)) =
    ((if truthy title then [Text (Int 200) (Int 80) title "#ffffff" "mm"] else []) ++
     (if truthy subtitle then [Text (Int 200) (Int 320) subtitle "#aaaaaa" "mm"] else []))%list.
Proof.
  by_gauge_type gauge_type title subtitle; vm_compute; reflexivity.
Qed.

(** X8.  For every gauge type [create_gauge] has as many labels as major
    ticks, draws one major tick per major angle, in order, and draws
    exactly the non-empty labels, each at the angle of the major tick
    with the same index. *)
Theorem create_gauge_labels_follow_ticks (filename gauge_type title subtitle : string) :
  let l := cmds_of (create_gauge filename gauge_type title subtitle) in
  List.length (gauge_labels gauge_type) = List.length (gauge_angles gauge_type) /\
  major_tick_angles l = gauge_angles gauge_type /\
  labels_drawn l =
    filter (fun p => truthy (snd p))
           (combine (gauge_angles gauge_type) (gauge_labels gauge_type)).
Proof.
  by_gauge_type gauge_type title subtitle; repeat split; vm_compute; reflexivity.
Qed.

(** ** One tick per step angle *)

Lemma py_in_In (x : Z) (l : list Z) : py_in x l = true <-> In x l.
Proof.
  unfold py_in. rewrite existsb_exists. split.
  - intros (y & Hy & Heq). apply Z.eqb_eq in Heq. subst y. exact Hy.
  - intros H. exists x. split; [exact H | apply Z.eqb_refl].
Qed.

Lemma distinctZb_sound (l : list Z) : distinctZb l = true -> NoDup l.
Proof.
  induction l as [|x l IH]; intros H; [constructor|].
  cbn [distinctZb] in H. apply andb_true_iff in H. destruct H as [Hx Hl].
  constructor; [|apply IH; exact Hl].
  intros Hin. apply py_in_In in Hin. rewrite Hin in Hx. discriminate.
Qed.

Lemma rearrangesb_sound (l1 l2 : list Z) :
  rearrangesb l1 l2 = true -> Permutation l1 l2 /\ NoDup l1.
Proof.
  unfold rearrangesb. intros H.
  apply andb_true_iff in H. destruct H as [H Hlen].
  apply andb_true_iff in H. destruct H as [Hd Hincl].
  apply distinctZb_sound in Hd. split; [|exact Hd].
  apply NoDup_Permutation_bis.
  - exact Hd.
  - apply Nat.leb_le. exact Hlen.
  - intros a Ha. apply py_in_In.
    rewrite forallb_forall in Hincl. apply Hincl. exact Ha.
Qed.

(** X9.  Every angle of the minor-step sequence gets exactly one tick, a
    major one or a minor one, and no other angle gets a tick: in
    [create_gauge] for every gauge type, in the colour-zone gauges (whose
    step angles are -120, -110, ..., 120 turned by 270), and in the fuel
    gauge of the script. *)
Theorem every_step_angle_ticked_once :
  (forall filename gauge_type title subtitle,
      let l := cmds_of (create_gauge filename gauge_type title subtitle) in
      Permutation (major_tick_angles l ++ minor_tick_angles l)
                  (gauge_minor_angles gauge_type) /\
      NoDup (major_tick_angles l ++ minor_tick_angles l)) /\
  (forall filename title subtitle,
      let l := cmds_of (create_standard_color_gauge filename title subtitle) in
      Permutation (major_tick_angles l ++ minor_tick_angles l)
                  (rotate_angles (90 + 180) (py_range (-120) 121 10)) /\
      NoDup (major_tick_angles l ++ minor_tick_angles l)) /\
  (let l := cmds_of thrust_gauge in
   Permutation (major_tick_angles l ++ minor_tick_angles l)
               (rotate_angles (90 + 180) (py_range (-120) 121 10)) /\
   NoDup (major_tick_angles l ++ minor_tick_angles l)) /\
  (let l := cmds_of fuel_gauge in
   Permutation (major_tick_angles l ++ minor_tick_angles l) fuel_minor_angles /\
   NoDup (major_tick_angles l ++ minor_tick_angles l)).
Proof.
  split; [|split; [|split]].
  - intros filename gauge_type title subtitle.
    by_gauge_type gauge_type title subtitle;
      apply rearrangesb_sound; vm_compute; reflexivity.
  - intros filename title subtitle. apply rearrangesb_sound. vm_compute. reflexivity.
  - apply rearrangesb_sound. vm_compute. reflexivity.
  - apply rearrangesb_sound. vm_compute. reflexivity.
Qed.

(** ** Ticks stay between the face and the rim *)

(** X10.  Each of the seven gauges with a dial (all but the horizon)
    starts with the background circle of radius 180 about (200, 200);
    every other circle or pie slice of it lies within radius 140; it has
    ticks, and every tick is a segment on one ray from the centre, from
    a radius above 140 to a larger radius below 180.  So no tick reaches
    over the rim or into the face and the zone ring.  It holds for
    [create_gauge] and [create_standard_color_gauge] with any arguments
    and for the seven dial images the run saves.  The horizon gauge has
    no radial tick: its tick marks are twelve horizontal segments. *)
Theorem ticks_stay_in_band :
  (forall filename gauge_type title subtitle,
      let l := cmds_of (create_gauge filename gauge_type title subtitle) in
      ticks_in_band l = true /\ existsb is_tick l = true) /\
  (forall filename title subtitle,
      let l := cmds_of (create_standard_color_gauge filename title subtitle) in
      ticks_in_band l = true /\ existsb is_tick l = true) /\
  Forall (fun f => ticks_in_band (saved_cmds f) = true /\
                   existsb is_tick (saved_cmds f) = true)
         dial_gauge_files /\
  existsb is_tick (saved_cmds "images/horizon-gauge.png") = false /\
  List.length (pitch_ticks (saved_cmds "images/horizon-gauge.png")) = 12%nat.
Proof.
  split; [|split; [|split; [|split]]].
  - intros filename gauge_type title subtitle.
    by_gauge_type gauge_type title subtitle; split; vm_compute; reflexivity.
  - intros filename title subtitle. split; vm_compute; reflexivity.
  - repeat constructor; vm_compute; reflexivity.
  - vm_compute. reflexivity.
  - vm_compute. reflexivity.
Qed.

(** ** The horizon gauge *)

Lemma horizon_zones_disjoint : pairwise_disjoint [(180, 360); (0, 180)].
Proof. disjoint_zones. Qed.

Ltac in_list := repeat (first [left; reflexivity | right]).

(** X11.  In the horizon gauge the sky and ground slices split the full
    circle between them (180 degrees each, no degree in both); every
    line is horizontal; and the twelve pitch ticks skip the horizon row
    y = 200 and are symmetric: each has its mirror image left-right and
    its mirror image above-below among them. *)
Theorem horizon_layout :
  let l := cmds_of horizon_gauge in
  zone_angles l = [(180, 360); (0, 180)] /\
  total_span (zone_angles l) = 360 /\
  pairwise_disjoint (zone_angles l) /\
  Forall (fun s => let '(_, y1, _, y2, _) := s in y1 = y2) (omap segment_of l) /\
  List.length (pitch_ticks l) = 12%nat /\
  Forall (fun t => let '(x1, y, x2) := t in
                   y <> 200 /\
                   In (400 - x2, y, 400 - x1) (pitch_ticks l) /\
                   In (x1, 400 - y, x2) (pitch_ticks l))
         (pitch_ticks l).
Proof.
  split; [|split; [|split; [|split; [|split]]]].
  - vm_compute. reflexivity.
  - vm_compute. reflexivity.
  - change (pairwise_disjoint [(180, 360); (0, 180)]). apply horizon_zones_disjoint.
  - vm_compute. repeat constructor.
  - vm_compute. reflexivity.
  - vm_compute.
    repeat (first [apply Forall_nil | apply Forall_cons]);
      (split; [discriminate | split; in_list]).
Qed.
